(** * The low-level binlog stream reader wrapper

    A shallow embedding of
    [replication_handler/components/low_level_binlog_stream_reader_wrapper.py]:
    the table filter ([_get_only_tables]), the event normalizer
    ([_prepare_event], [_get_data_events_from_row_event]) and the lazy refill
    of the event buffer ([_refill_current_events]), with the properties the
    specification states about them. *)

From stdpp Require Import gmap strings list.
From Stdlib Require Import ZArith.

Open Scope string_scope.
Open Scope list_scope.

(** ** Python strings

    Table names are Python text strings.  The three operations the wrapper
    uses are [str.endswith], the slice [s[:stop]] and concatenation (which
    is what ["{0}{1}".format(a, b)] computes for two strings). *)

Module PyStr.

(** [s.endswith(suffix)]: the suffix fits and the last [len(suffix)]
    characters of [s] are the suffix. *)
Definition endswith (s suffix : string) : bool :=
  (String.length suffix <=? String.length s)%nat
  && String.eqb
       (String.substring (String.length s - String.length suffix)
                         (String.length suffix) s)
       suffix.

(** [s[:stop]]: a negative [stop] counts from the end, and both ends are
    clamped to the string. *)
Definition slice_to (s : string) (stop : Z) : string :=
  let n := Z.of_nat (String.length s) in
  let stop' := if (stop <? 0)%Z then Z.max (stop + n) 0 else Z.min stop n in
  String.substring 0 (Z.to_nat stop') s.

(** [len(s)] as a Python integer. *)
Definition len (s : string) : Z := Z.of_nat (String.length s).

(** ["{0}{1}".format(a, b)] on two strings. *)
Definition format2 (a b : string) : string := a +:+ b.

End PyStr.

(** ** Collaborators

    The event classes and type codes of the replication library, the message
    classes of the message bus, the raw stream and the [DataEvent] tuple are
    declared outside this file of the repository.  They are modelled here
    with the fields the wrapper touches. *)

(** Type codes of the row events ([pymysqlreplication.constants.BINLOG]).
    The wrapper imports the three version-2 codes; the version-1 codes are
    carried by the same event classes and are not known to the wrapper. *)
Module BINLOG.

Definition WRITE_ROWS_EVENT_V1 : Z := 0x17.
Definition UPDATE_ROWS_EVENT_V1 : Z := 0x18.
Definition DELETE_ROWS_EVENT_V1 : Z := 0x19.
Definition WRITE_ROWS_EVENT_V2 : Z := 0x1e.
Definition UPDATE_ROWS_EVENT_V2 : Z := 0x1f.
Definition DELETE_ROWS_EVENT_V2 : Z := 0x20.

End BINLOG.

(** The message classes of [data_pipeline.message]. *)
Inductive message_class :=
  | CreateMessage
  | UpdateMessage
  | DeleteMessage
  | RefreshMessage.

(** A Python value stored in an attribute of an event object. *)
Inductive pyval :=
  | PyNone
  | PyInt (n : Z)
  | PyStr (s : string).

(** The two classes of metadata events and the three classes of row events
    that [isinstance] tells apart in [_prepare_event]. *)
Inductive metadata_class := QueryEvent | GtidEvent.

Inductive rows_class := WriteRowsEvent | UpdateRowsEvent | DeleteRowsEvent.

(** A row event, with the attributes [_get_data_events_from_row_event]
    reads.  The rows themselves are opaque to the wrapper. *)
Module RowsEvent.

Record t (row : Type) := mk {
  schema : string;
  table : string;
  event_type : Z;
  rows : list row;
  timestamp : Z;
}.

Arguments mk {row}.
Arguments schema {row}.
Arguments table {row}.
Arguments event_type {row}.
Arguments rows {row}.
Arguments timestamp {row}.

End RowsEvent.

(** A raw event object as the stream hands it over.  A metadata event is
    kept as its class and its attribute dictionary, since the wrapper only
    assigns two attributes on it; an event of any other class is kept the
    same way. *)
Inductive binlog_event (row : Type) :=
  | MetadataEvent (cls : metadata_class) (attrs : gmap string pyval)
  | RowsEvent (cls : rows_class) (ev : RowsEvent.t row)
  | OtherEvent (attrs : gmap string pyval).

Arguments MetadataEvent {row}.
Arguments RowsEvent {row}.
Arguments OtherEvent {row}.

(** Modelled from the spec: the [DataEvent] tuple of
    [replication_handler.util.misc], which is not among the sources; its
    fields are those of the spec's DomainEvent and of the keyword call in
    [_get_data_events_from_row_event]. *)
Module DataEvent.

Record t (R : Type) := mk {
  schema : string;
  table : string;
  log_pos : Z;
  log_file : string;
  row : R;
  timestamp : Z;
  message_type : message_class;
}.

Arguments mk {R}.
Arguments schema {R}.
Arguments table {R}.
Arguments log_pos {R}.
Arguments log_file {R}.
Arguments row {R}.
Arguments timestamp {R}.
Arguments message_type {R}.

End DataEvent.

(** A unit of the buffer: a stamped metadata event or a data event. *)
Inductive stream_unit (row : Type) :=
  | Metadata (cls : metadata_class) (attrs : gmap string pyval)
  | Data (d : DataEvent.t row).

Arguments Metadata {row}.
Arguments Data {row}.

(** Modelled from the spec: the raw stream provider ([BinLogStreamReader] of
    the replication library).  Per the spec's external interface it exposes
    the current log-file name and offset, updated per consumed raw unit, and
    a pull returning the next raw event or the absent marker.  The provider
    is a black box: [feed] is the sequence of units it will deliver, each
    with the position the reader reports once the unit is consumed, and
    [fetched] counts the pulls made so far.  Only a pull that returns is
    modelled: in the code a pull that fails (a dropped connection) raises out
    of [fetchone] and through the refill, which has no handler, and no
    property below is about such a pull. *)
Module BinLogStreamReader.

Record packet (row : Type) := mk_packet {
  event : option (binlog_event row);
  file : string;
  pos : Z;
}.

Arguments mk_packet {row}.
Arguments event {row}.
Arguments file {row}.
Arguments pos {row}.

Record t (row : Type) := mk {
  feed : nat → packet row;
  fetched : nat;
  log_file : string;
  log_pos : Z;
}.

Arguments mk {row}.
Arguments feed {row}.
Arguments fetched {row}.
Arguments log_file {row}.
Arguments log_pos {row}.

Definition fetchone {row} (s : t row) : option (binlog_event row) * t row :=
  let p := feed s (fetched s) in
  (event p,
   {| feed := feed s; fetched := S (fetched s);
      log_file := file p; log_pos := pos p |}).

End BinLogStreamReader.

(** ** Exceptions and the wrapper's state

    A method either returns or raises; the wrapper object it works on keeps
    whatever was assigned before the exception. *)

Inductive exn :=
  | KeyError (key : Z).

Inductive result (A : Type) :=
  | Ok (a : A)
  | Raise (e : exn).

Arguments Ok {A}.
Arguments Raise {A}.

(** The instance attributes of [LowLevelBinlogStreamReaderWrapper]:
    [current_events] is the buffer of the base class, [stream] the raw
    stream opened by [_seek]. *)
Record Wrapper (row : Type) := mkWrapper {
  current_events : list (stream_unit row);
  stream : BinLogStreamReader.t row;
}.

Arguments mkWrapper {row}.
Arguments current_events {row}.
Arguments stream {row}.

(** A method of the wrapper: from the object to an outcome and the object
    afterwards. *)
Definition M (row A : Type) : Type := Wrapper row → result A * Wrapper row.

Module WrapperMonad.

Definition ret {row A} (a : A) : M row A := λ self, (Ok a, self).

Definition bind {row A B} (c : M row A) (k : A → M row B) : M row B :=
  λ self,
    match c self with
    | (Ok a, self') => k a self'
    | (Raise e, self') => (Raise e, self')
    end.

(** Read [self]. *)
Definition get_self {row} : M row (Wrapper row) := λ self, (Ok self, self).

(** Call a method that only reads [self]. *)
Definition call {row A} (f : Wrapper row → result A) : M row A :=
  λ self, (f self, self).

(** [self.stream.fetchone()], for a pull that returns. *)
Definition stream_fetchone {row} : M row (option (binlog_event row)) :=
  λ self,
    let '(event, stream') := BinLogStreamReader.fetchone (stream self) in
    (Ok event,
     {| current_events := current_events self; stream := stream' |}).

(** [self.current_events.extend(units)]. *)
Definition current_events_extend {row} (units : list (stream_unit row))
  : M row unit :=
  λ self,
    (Ok tt,
     {| current_events := current_events self ++ units;
        stream := stream self |}).

End WrapperMonad.

Notation "x <- c ;; k" := (WrapperMonad.bind c (λ x, k))
  (at level 100, c at next level, right associativity).
Notation "c ;;; k" := (WrapperMonad.bind c (λ _, k))
  (at level 100, right associativity).

(** ** The wrapper *)

(** [self.refresh_table_suffix], assigned once in [__init__]. *)
Definition refresh_table_suffix : string := "_data_pipeline_refresh".

(** The module-level dictionary from row-event type codes to message
    classes. *)
Definition message_type_map : gmap Z message_class :=
  {[ BINLOG.WRITE_ROWS_EVENT_V2 := CreateMessage;
     BINLOG.UPDATE_ROWS_EVENT_V2 := UpdateMessage;
     BINLOG.DELETE_ROWS_EVENT_V2 := DeleteMessage ]}.

(** [not l] on a Python list. *)
Definition py_not {A} (l : list A) : bool :=
  match l with
  | [] => true
  | _ :: _ => false
  end.

(** The loop of [_get_only_tables], with [res_only_table] as accumulator. *)
Fixpoint only_tables_loop (only_tables res_only_table : list string)
  : list string :=
  match only_tables with
  | [] => res_only_table
  | table_name :: rest =>
      if PyStr.endswith table_name refresh_table_suffix
      then only_tables_loop rest res_only_table
      else
        only_tables_loop rest
          ((res_only_table ++ [table_name])
             ++ [PyStr.format2 table_name refresh_table_suffix])
  end.

(** [_get_only_tables], with [config.env_config.table_whitelist] as its
    argument: [None] when the whitelist is unset. *)
Definition _get_only_tables (table_whitelist : option (list string))
  : option (list string) :=
  match table_whitelist with
  | None => None
  | Some only_tables =>
      if py_not only_tables then None
      else Some (only_tables_loop only_tables [])
  end.

(** [_get_data_events_from_row_event]. *)
Definition _get_data_events_from_row_event {row}
    (self : Wrapper row) (row_event : RowsEvent.t row)
  : result (list (stream_unit row)) :=
  let target_table := RowsEvent.table row_event in
  match message_type_map !! RowsEvent.event_type row_event with
  | None => Raise (KeyError (RowsEvent.event_type row_event))
  | Some message_type =>
      let '(target_table, message_type) :=
        if PyStr.endswith (RowsEvent.table row_event) refresh_table_suffix
        then (PyStr.slice_to (RowsEvent.table row_event)
                             (- PyStr.len refresh_table_suffix),
              RefreshMessage)
        else (target_table, message_type) in
      Ok ((λ r,
             Data {| DataEvent.schema := RowsEvent.schema row_event;
                     DataEvent.table := target_table;
                     DataEvent.log_pos :=
                       BinLogStreamReader.log_pos (stream self);
                     DataEvent.log_file :=
                       BinLogStreamReader.log_file (stream self);
                     DataEvent.row := r;
                     DataEvent.timestamp := RowsEvent.timestamp row_event;
                     DataEvent.message_type := message_type |})
            <$> RowsEvent.rows row_event)
  end.

(** [_prepare_event]: [event] can be [None].  The two assignments stamp the
    position on the event object, which is then returned itself. *)
Definition _prepare_event {row}
    (self : Wrapper row) (event : option (binlog_event row))
  : result (list (stream_unit row)) :=
  match event with
  | Some (MetadataEvent cls attrs) =>
      let attrs :=
        <["log_pos" := PyInt (BinLogStreamReader.log_pos (stream self))]>
          attrs in
      let attrs :=
        <["log_file" := PyStr (BinLogStreamReader.log_file (stream self))]>
          attrs in
      Ok [Metadata cls attrs]
  | Some (RowsEvent _ row_event) =>
      _get_data_events_from_row_event self row_event
  | Some (OtherEvent _) => Ok []
  | None => Ok []
  end.

(** [_refill_current_events]. *)
Definition _refill_current_events {row} : M row unit :=
  self <- WrapperMonad.get_self ;;
  if py_not (current_events self)
  then
    event <- WrapperMonad.stream_fetchone ;;
    units <- WrapperMonad.call (λ self, _prepare_event self event) ;;
    WrapperMonad.current_events_extend units
  else WrapperMonad.ret tt.

(** Modelled from the spec: [peek] of the base class
    [BaseBinlogStreamReaderWrapper], which is not among the sources.  If the
    buffer is empty, one refill cycle is attempted; if it is still empty the
    result is absent, otherwise it is the first buffered unit, which stays
    in the buffer. *)
Definition peek {row} : M row (option (stream_unit row)) :=
  self <- WrapperMonad.get_self ;;
  (if py_not (current_events self)
   then _refill_current_events
   else WrapperMonad.ret tt) ;;;
  self <- WrapperMonad.get_self ;;
  WrapperMonad.ret (head (current_events self)).

(** ** A sample run

    A stream whose rows are plain strings, used to evaluate the wrapper on
    concrete events. *)
Module Sample.

Definition orders_shadow : string := "orders_data_pipeline_refresh".

(** A delete of one row on the shadow table of [orders]. *)
Definition shadow_delete : RowsEvent.t string :=
  {| RowsEvent.schema := "shop"; RowsEvent.table := orders_shadow;
     RowsEvent.event_type := BINLOG.DELETE_ROWS_EVENT_V2;
     RowsEvent.rows := ["r1"]; RowsEvent.timestamp := 1467000000 |}.

(** An update of three rows on [orders]. *)
Definition update3 : RowsEvent.t string :=
  {| RowsEvent.schema := "shop"; RowsEvent.table := "orders";
     RowsEvent.event_type := BINLOG.UPDATE_ROWS_EVENT_V2;
     RowsEvent.rows := ["r1"; "r2"; "r3"];
     RowsEvent.timestamp := 1467000001 |}.

(** An insert on a table whose name carries the suffix twice. *)
Definition twice_shadow_insert : RowsEvent.t string :=
  {| RowsEvent.schema := "shop";
     RowsEvent.table := "orders_data_pipeline_refresh_data_pipeline_refresh";
     RowsEvent.event_type := BINLOG.WRITE_ROWS_EVENT_V2;
     RowsEvent.rows := ["r1"]; RowsEvent.timestamp := 1467000002 |}.

(** A version-1 insert with no rows, on a plain and on a shadow table. *)
Definition v1_insert_no_rows : RowsEvent.t string :=
  {| RowsEvent.schema := "shop"; RowsEvent.table := "orders";
     RowsEvent.event_type := BINLOG.WRITE_ROWS_EVENT_V1;
     RowsEvent.rows := []; RowsEvent.timestamp := 1467000003 |}.

Definition v1_shadow_insert : RowsEvent.t string :=
  {| RowsEvent.schema := "shop"; RowsEvent.table := orders_shadow;
     RowsEvent.event_type := BINLOG.WRITE_ROWS_EVENT_V1;
     RowsEvent.rows := ["r1"; "r2"]; RowsEvent.timestamp := 1467000004 |}.

(** A version-1 update of two rows on a plain table. *)
Definition v1_update : RowsEvent.t string :=
  {| RowsEvent.schema := "shop"; RowsEvent.table := "orders";
     RowsEvent.event_type := BINLOG.UPDATE_ROWS_EVENT_V1;
     RowsEvent.rows := ["r1"; "r2"]; RowsEvent.timestamp := 1467000006 |}.

(** A version-2 insert with no rows. *)
Definition insert_no_rows : RowsEvent.t string :=
  {| RowsEvent.schema := "shop"; RowsEvent.table := "orders";
     RowsEvent.event_type := BINLOG.WRITE_ROWS_EVENT_V2;
     RowsEvent.rows := []; RowsEvent.timestamp := 1467000005 |}.

(** A schema change that already carries a stale [log_pos] attribute. *)
Definition alter_table : gmap string pyval :=
  {[ "query" := PyStr "ALTER TABLE orders ADD COLUMN note TEXT";
     "schema" := PyStr "shop";
     "log_pos" := PyInt 0 ]}.

Definition feed (n : nat) : BinLogStreamReader.packet string :=
  match n with
  | 0 => BinLogStreamReader.mk_packet
           (Some (RowsEvent UpdateRowsEvent update3)) "binlog.000007" 420
  | 1 => BinLogStreamReader.mk_packet
           (Some (RowsEvent WriteRowsEvent insert_no_rows)) "binlog.000007" 512
  | 2 => BinLogStreamReader.mk_packet
           (Some (MetadataEvent QueryEvent alter_table)) "binlog.000007" 640
  | _ => BinLogStreamReader.mk_packet None "binlog.000007" 640
  end.

(** A stream positioned after [n] pulls. *)
Definition stream_at (n : nat) : BinLogStreamReader.t string :=
  {| BinLogStreamReader.feed := feed; BinLogStreamReader.fetched := n;
     BinLogStreamReader.log_file := "binlog.000007";
     BinLogStreamReader.log_pos := 120 |}.

(** A wrapper right after construction, and one with a unit pending. *)
Definition fresh : Wrapper string :=
  {| current_events := []; stream := stream_at 0 |}.

Definition before_empty_insert : Wrapper string :=
  {| current_events := []; stream := stream_at 1 |}.

Definition pending : Wrapper string :=
  {| current_events := [Metadata GtidEvent ∅]; stream := stream_at 0 |}.

End Sample.

(** ** Repeated refills *)

(** The stream after [n] more pulls. *)
Fixpoint stream_after_pulls {row} (n : nat) (s : BinLogStreamReader.t row)
  : BinLogStreamReader.t row :=
  match n with
  | 0 => s
  | S n => stream_after_pulls n (BinLogStreamReader.fetchone s).2
  end.

(** [n] calls of [_refill_current_events] in a row; an exception ends the
    sequence. *)
Fixpoint refill_times {row} (n : nat) : M row unit :=
  match n with
  | 0 => WrapperMonad.ret tt
  | S n => _refill_current_events ;;; refill_times n
  end.

(** A buffered unit carries the position [(file, pos)]: in its fields for a
    data event, in its two assigned attributes for a metadata event. *)
Definition stamped_at {row} (file : string) (pos : Z) (u : stream_unit row)
  : Prop :=
  match u with
  | Metadata _ attrs =>
      attrs !! "log_pos" = Some (PyInt pos)
      ∧ attrs !! "log_file" = Some (PyStr file)
  | Data d => DataEvent.log_pos d = pos ∧ DataEvent.log_file d = file
  end.

(** Every unit of the buffer carries the current position of the stream. *)
Definition buffer_at_stream_position {row} (self : Wrapper row) : Prop :=
  Forall (stamped_at (BinLogStreamReader.log_file (stream self))
                     (BinLogStreamReader.log_pos (stream self)))
         (current_events self).

(** ** Facts about Python strings *)

Section PyStrFacts.

Lemma app_nil_l_str (q : string) : "" +:+ q = q.
Proof. reflexivity. Qed.

Lemma app_cons_str (c : Ascii.ascii) (p q : string) :
  String c p +:+ q = String c (p +:+ q).
Proof. reflexivity. Qed.

Lemma length_app (p q : string) :
  String.length (p +:+ q) = String.length p + String.length q.
Proof.
  induction p as [|c p IH]; [done |].
  rewrite app_cons_str. simpl. by rewrite IH.
Qed.

Lemma substring_all (q : string) :
  String.substring 0 (String.length q) q = q.
Proof. induction q as [|c q IH]; simpl; [done | by rewrite IH]. Qed.

Lemma substring_0_app (p q : string) :
  String.substring 0 (String.length p) (p +:+ q) = p.
Proof.
  induction p as [|c p IH].
  - by destruct q.
  - rewrite app_cons_str. simpl. by rewrite IH.
Qed.

Lemma substring_skip_app (p q : string) :
  String.substring (String.length p) (String.length q) (p +:+ q) = q.
Proof.
  induction p as [|c p IH]; [apply substring_all |].
  rewrite app_cons_str. simpl. apply IH.
Qed.

(** Any string splits at any position inside it. *)
Lemma substring_split (s : string) (k : nat) :
  (k ≤ String.length s)%nat →
  s = String.substring 0 k s +:+ String.substring k (String.length s - k) s.
Proof.
  revert k. induction s as [|c s IH]; intros k Hk; simpl in *.
  - by destruct k.
  - destruct k as [|k]; simpl.
    + by rewrite substring_all.
    + rewrite app_cons_str. f_equal. apply IH. lia.
Qed.

Lemma app_inj_r (p1 p2 q : string) : p1 +:+ q = p2 +:+ q → p1 = p2.
Proof.
  revert p2. induction p1 as [|c p1 IH]; intros [|d p2] H.
  - done.
  - exfalso. apply (f_equal String.length) in H.
    rewrite app_nil_l_str, app_cons_str in H. simpl in H.
    rewrite length_app in H. lia.
  - exfalso. apply (f_equal String.length) in H.
    rewrite app_nil_l_str, app_cons_str in H. simpl in H.
    rewrite length_app in H. lia.
  - rewrite !app_cons_str in H. injection H as -> H. f_equal. by apply IH.
Qed.

Lemma app_assoc_str (p q r : string) : (p +:+ q) +:+ r = p +:+ (q +:+ r).
Proof.
  induction p as [|c p IH]; [done |]. by rewrite !app_cons_str, IH.
Qed.

(** [endswith] decides "is of the form [p +:+ suffix]". *)
Lemma endswith_true (s suffix : string) :
  PyStr.endswith s suffix = true ↔ ∃ p, s = p +:+ suffix.
Proof.
  unfold PyStr.endswith. rewrite andb_true_iff, Nat.leb_le, String.eqb_eq.
  split.
  - intros [Hle Hsub].
    exists (String.substring 0 (String.length s - String.length suffix) s).
    pose proof (substring_split s (String.length s - String.length suffix))
      as Hs.
    replace (String.length s - (String.length s - String.length suffix))
      with (String.length suffix) in Hs by lia.
    rewrite Hsub in Hs. apply Hs. lia.
  - intros [p ->]. rewrite length_app. split; [lia |].
    replace (String.length p + String.length suffix - String.length suffix)
      with (String.length p) by lia.
    apply substring_skip_app.
Qed.

Lemma endswith_app (p suffix : string) :
  PyStr.endswith (p +:+ suffix) suffix = true.
Proof. apply endswith_true. by exists p. Qed.

Lemma endswith_false (s suffix : string) :
  PyStr.endswith s suffix = false ↔ ∀ p, s ≠ p +:+ suffix.
Proof.
  rewrite <- not_true_iff_false, endswith_true. split.
  - intros Hn p Hp. apply Hn. by exists p.
  - intros Hn [p Hp]. by apply (Hn p).
Qed.

(** Slicing [len(suffix)] characters off [p +:+ suffix] leaves [p], as long
    as the suffix is not empty ([s[:-0]] is [s[:0]], the empty string). *)
Lemma slice_to_strip (p suffix : string) :
  suffix ≠ "" →
  PyStr.slice_to (p +:+ suffix) (- PyStr.len suffix) = p.
Proof.
  intros Hne. unfold PyStr.slice_to, PyStr.len.
  assert (0 < String.length suffix) by (destruct suffix; simpl; [done | lia]).
  rewrite length_app.
  destruct (Z.ltb_spec (- Z.of_nat (String.length suffix)) 0); [| lia].
  replace (Z.to_nat _) with (String.length p) by lia.
  apply substring_0_app.
Qed.

(** A name ends with the doubled suffix exactly when it ends with the suffix
    and still does after one copy is removed. *)
Lemma endswith_twice (p suffix : string) :
  PyStr.endswith (p +:+ suffix) (suffix +:+ suffix)
  = PyStr.endswith p suffix.
Proof.
  apply eq_true_iff_eq. rewrite !endswith_true. split.
  - intros [q Hq]. exists q. rewrite <- app_assoc_str in Hq.
    by apply app_inj_r in Hq.
  - intros [q ->]. exists q. by rewrite app_assoc_str.
Qed.

(** A name that does not end with the suffix does not end with it twice. *)
Lemma endswith_twice_false (s suffix : string) :
  PyStr.endswith s suffix = false →
  PyStr.endswith s (suffix +:+ suffix) = false.
Proof.
  rewrite !endswith_false. intros Hn p ->.
  apply (Hn (p +:+ suffix)). by rewrite app_assoc_str.
Qed.

End PyStrFacts.

(** ** Facts about the table filter *)

Section TableFilter.

Local Abbreviation shadow t := (PyStr.endswith t refresh_table_suffix).

Lemma refresh_table_suffix_nonempty : refresh_table_suffix ≠ "".
Proof. discriminate. Qed.

(** The accumulator is only ever appended to. *)
Lemma only_tables_loop_acc (W acc : list string) :
  only_tables_loop W acc = acc ++ only_tables_loop W [].
Proof.
  revert acc. induction W as [|t W IH]; intros acc; simpl.
  - by rewrite app_nil_r.
  - destruct (shadow t); [apply IH |].
    rewrite (IH ((acc ++ [t]) ++ _)), (IH [t; _]).
    by rewrite <- !app_assoc.
Qed.

Lemma only_tables_loop_skip (t : string) (W : list string) :
  shadow t = true →
  only_tables_loop (t :: W) [] = only_tables_loop W [].
Proof. intros H. simpl. by rewrite H. Qed.

Lemma only_tables_loop_keep (t : string) (W : list string) :
  shadow t = false →
  only_tables_loop (t :: W) []
  = t :: (t +:+ refresh_table_suffix) :: only_tables_loop W [].
Proof. intros H. simpl. rewrite H. by rewrite only_tables_loop_acc. Qed.

(** What the computed list holds: every whitelisted name that is not a
    shadow name, and its shadow name. *)
Lemma elem_of_only_tables_loop (x : string) (W : list string) :
  x ∈ only_tables_loop W [] ↔
  ∃ t, t ∈ W ∧ shadow t = false ∧ (x = t ∨ x = t +:+ refresh_table_suffix).
Proof.
  induction W as [|t W IH].
  - simpl. split; [by intros ?%elem_of_nil | by intros (? & ?%elem_of_nil & _)].
  - destruct (shadow t) eqn:Ht.
    + rewrite only_tables_loop_skip, IH by done. split.
      * intros (u & Hu & Hs & Hx). exists u. rewrite elem_of_cons. eauto.
      * intros (u & [-> | Hu]%elem_of_cons & Hs & Hx); [congruence | eauto].
    + rewrite only_tables_loop_keep, !elem_of_cons, IH by done. split.
      * intros [-> | [-> | (u & Hu & Hs & Hx)]].
        -- exists t. rewrite elem_of_cons. eauto.
        -- exists t. rewrite elem_of_cons. eauto.
        -- exists u. rewrite elem_of_cons. eauto.
      * intros (u & [-> | Hu]%elem_of_cons & Hs & Hx);
          [destruct Hx; eauto | eauto 10].
Qed.

Lemma length_only_tables_loop (W : list string) :
  Forall (λ t, shadow t = false) W →
  length (only_tables_loop W []) = 2 * length W.
Proof.
  induction 1 as [|t W Ht _ IH]; [done |].
  rewrite only_tables_loop_keep by done. simpl. lia.
Qed.

Lemma only_tables_loop_all_shadow (W : list string) :
  Forall (λ t, shadow t = true) W → only_tables_loop W [] = [].
Proof.
  induction 1 as [|t W Ht _ IH]; [done |].
  by rewrite only_tables_loop_skip.
Qed.

(** A name that is not a shadow name is the shadow of no name. *)
Lemma not_shadow_ne_app (t u : string) :
  shadow t = false → t ≠ u +:+ refresh_table_suffix.
Proof. intros H. by apply endswith_false. Qed.

(** Repetitions in the list are exactly the repetitions among the
    whitelisted names that are kept. *)
Lemma NoDup_only_tables_loop (W : list string) :
  NoDup (only_tables_loop W [])
  ↔ NoDup (filter (λ t, shadow t = false) W).
Proof.
  induction W as [|t W IH]; [done |].
  destruct (shadow t) eqn:Ht.
  - rewrite only_tables_loop_skip by done.
    rewrite filter_cons_False by congruence. done.
  - rewrite only_tables_loop_keep by done.
    rewrite filter_cons_True by done.
    rewrite !NoDup_cons, elem_of_cons, !elem_of_only_tables_loop, IH.
    rewrite list_elem_of_filter.
    split.
    + intros (Hn1 & Hn2 & Hnd). split; [| done].
      intros [_ Hin]. apply Hn2. exists t. eauto.
    + intros (Hn & Hnd). split_and!; [| | done].
      * intros [Heq | (u & Hu & Hs & [-> | Hx])].
        -- by apply (not_shadow_ne_app t t).
        -- by apply Hn.
        -- by apply (not_shadow_ne_app t u).
      * intros (u & Hu & Hs & [Hx | Hx]).
        -- symmetry in Hx. by apply (not_shadow_ne_app u t).
        -- apply app_inj_r in Hx as ->. by apply Hn.
Qed.

(** On a non-empty whitelist the filter is the list the loop builds. *)
Lemma _get_only_tables_nonempty (W : list string) :
  W ≠ [] → _get_only_tables (Some W) = Some (only_tables_loop W []).
Proof. by destruct W. Qed.

Lemma _get_only_tables_Some (W res : list string) :
  _get_only_tables (Some W) = Some res → res = only_tables_loop W [].
Proof. destruct W; simpl; [done | congruence]. Qed.

End TableFilter.

(** ** Facts about the normalizer and the refill *)

Section NormalizerFacts.

Context {row : Type}.

Implicit Types (self : Wrapper row) (row_event : RowsEvent.t row).

Lemma message_type_map_write :
  message_type_map !! BINLOG.WRITE_ROWS_EVENT_V2 = Some CreateMessage.
Proof. reflexivity. Qed.

Lemma message_type_map_update :
  message_type_map !! BINLOG.UPDATE_ROWS_EVENT_V2 = Some UpdateMessage.
Proof. reflexivity. Qed.

Lemma message_type_map_delete :
  message_type_map !! BINLOG.DELETE_ROWS_EVENT_V2 = Some DeleteMessage.
Proof. reflexivity. Qed.


(** An unmapped type code raises before the table name is looked at. *)
Lemma rows_event_unmapped self row_event :
  message_type_map !! RowsEvent.event_type row_event = None →
  _get_data_events_from_row_event self row_event
  = Raise (KeyError (RowsEvent.event_type row_event)).
Proof.
  intros H. unfold _get_data_events_from_row_event. by rewrite H.
Qed.

(** A mapped type code on a table that is not a shadow table. *)
Lemma rows_event_plain self row_event (message_type : message_class) :
  message_type_map !! RowsEvent.event_type row_event = Some message_type →
  PyStr.endswith (RowsEvent.table row_event) refresh_table_suffix = false →
  _get_data_events_from_row_event self row_event
  = Ok ((λ r,
           Data {| DataEvent.schema := RowsEvent.schema row_event;
                   DataEvent.table := RowsEvent.table row_event;
                   DataEvent.log_pos :=
                     BinLogStreamReader.log_pos (stream self);
                   DataEvent.log_file :=
                     BinLogStreamReader.log_file (stream self);
                   DataEvent.row := r;
                   DataEvent.timestamp := RowsEvent.timestamp row_event;
                   DataEvent.message_type := message_type |})
          <$> RowsEvent.rows row_event).
Proof.
  intros Hk Hs. unfold _get_data_events_from_row_event. by rewrite Hk, Hs.
Qed.

(** A mapped type code on the shadow table of [base]. *)
Lemma rows_event_shadow self row_event (message_type : message_class)
    (base : string) :
  message_type_map !! RowsEvent.event_type row_event = Some message_type →
  RowsEvent.table row_event = base +:+ refresh_table_suffix →
  _get_data_events_from_row_event self row_event
  = Ok ((λ r,
           Data {| DataEvent.schema := RowsEvent.schema row_event;
                   DataEvent.table := base;
                   DataEvent.log_pos :=
                     BinLogStreamReader.log_pos (stream self);
                   DataEvent.log_file :=
                     BinLogStreamReader.log_file (stream self);
                   DataEvent.row := r;
                   DataEvent.timestamp := RowsEvent.timestamp row_event;
                   DataEvent.message_type := RefreshMessage |})
          <$> RowsEvent.rows row_event).
Proof.
  intros Hk Ht. unfold _get_data_events_from_row_event.
  rewrite Hk, Ht, endswith_app.
  by rewrite slice_to_strip by apply refresh_table_suffix_nonempty.
Qed.

(** The table of every data event that comes out of a row event: the name
    as it is, or the name with one copy of the suffix removed. *)
Lemma rows_event_output_table self row_event units (d : DataEvent.t row) :
  _get_data_events_from_row_event self row_event = Ok units →
  Data d ∈ units →
  (PyStr.endswith (RowsEvent.table row_event) refresh_table_suffix = false
   ∧ DataEvent.table d = RowsEvent.table row_event)
  ∨ RowsEvent.table row_event = DataEvent.table d +:+ refresh_table_suffix.
Proof.
  intros Hrun Hin.
  destruct (message_type_map !! RowsEvent.event_type row_event)
    as [mt|] eqn:Hk;
    [| by rewrite rows_event_unmapped in Hrun].
  destruct (PyStr.endswith (RowsEvent.table row_event) refresh_table_suffix)
    eqn:Hs.
  - apply endswith_true in Hs as [base Hbase].
    rewrite (rows_event_shadow _ _ mt base) in Hrun by done.
    injection Hrun as <-.
    apply list_elem_of_fmap in Hin as (r & [= ->] & _). by right.
  - rewrite (rows_event_plain _ _ mt) in Hrun by done.
    injection Hrun as <-.
    apply list_elem_of_fmap in Hin as (r & [= ->] & _). by left.
Qed.

(** A name of a computed filter never carries the suffix twice. *)
Lemma filtered_table_not_twice (table_whitelist : option (list string))
    (res : list string) (t : string) :
  _get_only_tables table_whitelist = Some res →
  t ∈ res →
  PyStr.endswith t (refresh_table_suffix +:+ refresh_table_suffix) = false.
Proof.
  destruct table_whitelist as [W|]; [| done].
  intros Hrun. apply _get_only_tables_Some in Hrun as ->.
  intros (u & _ & Hs & [-> | ->])%elem_of_only_tables_loop.
  - by apply endswith_twice_false.
  - by rewrite endswith_twice.
Qed.

(** Hence, under a whitelist, the tables the stream is asked to deliver
    always come out under a name without the suffix. *)
Lemma whitelisted_table_output_clean self row_event units
    (d : DataEvent.t row) (table_whitelist : option (list string))
    (res : list string) :
  _get_only_tables table_whitelist = Some res →
  RowsEvent.table row_event ∈ res →
  _get_data_events_from_row_event self row_event = Ok units →
  Data d ∈ units →
  PyStr.endswith (DataEvent.table d) refresh_table_suffix = false.
Proof.
  intros Hfilter Hin Hrun Hd.
  pose proof (filtered_table_not_twice _ _ _ Hfilter Hin) as Htwice.
  destruct (rows_event_output_table _ _ _ _ Hrun Hd) as [[Hs ->] | Ht].
  - done.
  - by rewrite Ht, endswith_twice in Htwice.
Qed.

(** With a unit pending, the refill does nothing. *)
Lemma refill_pending self :
  current_events self ≠ [] → _refill_current_events self = (Ok tt, self).
Proof.
  intros Hne. unfold _refill_current_events, WrapperMonad.bind,
    WrapperMonad.get_self. simpl.
  by destruct (current_events self).
Qed.

(** With an empty buffer, the refill is one pull, then the normalization
    with the position the stream has after that pull. *)
Lemma refill_empty self :
  current_events self = [] →
  let pull := BinLogStreamReader.fetchone (stream self) in
  let pulled := {| current_events := []; stream := pull.2 |} in
  _refill_current_events self
  = match _prepare_event pulled pull.1 with
    | Ok units =>
        (Ok tt, {| current_events := [] ++ units; stream := pull.2 |})
    | Raise e => (Raise e, pulled)
    end.
Proof.
  destruct self as [buffer s]. simpl. intros ->.
  unfold _refill_current_events, WrapperMonad.bind, WrapperMonad.get_self,
    WrapperMonad.stream_fetchone, WrapperMonad.call,
    WrapperMonad.current_events_extend, BinLogStreamReader.fetchone.
  simpl. by destruct (_prepare_event _ _).
Qed.

End NormalizerFacts.

(** ** The table filter: properties of the specification *)

(** C6. For every non-empty whitelist in which no entry ends with the
    shadow suffix, the computed filter has exactly twice as many entries as
    the whitelist, and for each whitelisted name it holds both the name and
    the name followed by the shadow suffix. *)
Theorem filter_expansion (W : list string) :
  W ≠ [] →
  Forall (λ t, PyStr.endswith t refresh_table_suffix = false) W →
  ∃ res,
    _get_only_tables (Some W) = Some res
    ∧ length res = 2 * length W
    ∧ ∀ t, t ∈ W → t ∈ res ∧ t +:+ refresh_table_suffix ∈ res.
Proof.
  intros Hne Hplain. exists (only_tables_loop W []). split_and!.
  - by apply _get_only_tables_nonempty.
  - by apply length_only_tables_loop.
  - intros t Ht.
    assert (PyStr.endswith t refresh_table_suffix = false) as Hs
      by (by eapply Forall_forall in Hplain).
    split; apply elem_of_only_tables_loop; exists t; auto.
Qed.

Lemma filter_expansion_witness :
  ["orders"; "users"] ≠ []
  ∧ Forall (λ t, PyStr.endswith t refresh_table_suffix = false)
           ["orders"; "users"]
  ∧ ∃ res,
      _get_only_tables (Some ["orders"; "users"]) = Some res
      ∧ length res = 2 * length ["orders"; "users"]
      ∧ ∀ t, t ∈ ["orders"; "users"] →
             t ∈ res ∧ t +:+ refresh_table_suffix ∈ res.
Proof.
  assert (Forall (λ t, PyStr.endswith t refresh_table_suffix = false)
                 ["orders"; "users"]) as Hplain
    by (repeat constructor).
  split; [discriminate |]. split; [exact Hplain |].
  apply filter_expansion; [discriminate | exact Hplain].
Defined.

(** C7 does not hold as stated: the filter is a list that is appended to,
    and a table name that is whitelisted twice is entered twice. *)
Lemma filter_repeats_repeated_names :
  _get_only_tables (Some ["orders"; "orders"])
  = Some ["orders"; "orders_data_pipeline_refresh";
          "orders"; "orders_data_pipeline_refresh"]
  ∧ ¬ NoDup ["orders"; "orders_data_pipeline_refresh";
             "orders"; "orders_data_pipeline_refresh"].
Proof.
  split; [reflexivity |].
  intros [Hn _]%NoDup_cons. apply Hn.
  apply elem_of_cons. right. apply elem_of_cons. by left.
Qed.

(** C7, amended.  The computed filter repeats an entry exactly when a table
    name that does not end with the shadow suffix is repeated in the
    whitelist; for a whitelist without repeated names it has no duplicate
    entries. *)
Theorem filter_duplicates (W res : list string) :
  _get_only_tables (Some W) = Some res →
  (NoDup res
   ↔ NoDup (filter (λ t, PyStr.endswith t refresh_table_suffix = false) W))
  ∧ (NoDup W → NoDup res).
Proof.
  intros Hrun. apply _get_only_tables_Some in Hrun as ->. split.
  - apply NoDup_only_tables_loop.
  - intros Hnd. apply NoDup_only_tables_loop. by apply NoDup_filter.
Qed.

Lemma filter_duplicates_witness :
  _get_only_tables (Some ["orders"; "users_data_pipeline_refresh"; "users"])
  = Some ["orders"; "orders_data_pipeline_refresh";
          "users"; "users_data_pipeline_refresh"]
  ∧ NoDup ["orders"; "orders_data_pipeline_refresh";
           "users"; "users_data_pipeline_refresh"].
Proof.
  split; [reflexivity |].
  apply (filter_duplicates
           ["orders"; "users_data_pipeline_refresh"; "users"]);
    [reflexivity |].
  apply NoDup_cons. split.
  - intros [H | [H | H%elem_of_nil]%elem_of_cons]%elem_of_cons;
      [discriminate H | discriminate H | exact H].
  - apply NoDup_cons. split.
    + intros [H | H%elem_of_nil]%elem_of_cons; [discriminate H | exact H].
    + apply NoDup_cons. split; [apply not_elem_of_nil | apply NoDup_nil_2].
Defined.

(** C8. The filter is the absent value exactly when the whitelist is empty
    or unset; a non-empty whitelist whose every entry ends with the shadow
    suffix gives the empty list, not the absent value: the entries are
    skipped without error. *)
Theorem filter_absent_iff_no_whitelist :
  (∀ table_whitelist,
     _get_only_tables table_whitelist = None
     ↔ table_whitelist = None ∨ table_whitelist = Some [])
  ∧ (∀ W,
       W ≠ [] →
       Forall (λ t, PyStr.endswith t refresh_table_suffix = true) W →
       _get_only_tables (Some W) = Some []).
Proof.
  split.
  - intros [[|t W]|]; simpl; split; auto.
    + discriminate.
    + intros [H | H]; discriminate H.
  - intros W Hne Hall. rewrite _get_only_tables_nonempty by done.
    by rewrite only_tables_loop_all_shadow.
Qed.

Lemma filter_absent_iff_no_whitelist_witness :
  _get_only_tables None = None
  ∧ _get_only_tables (Some []) = None
  ∧ _get_only_tables (Some [Sample.orders_shadow]) = Some [].
Proof.
  destruct filter_absent_iff_no_whitelist as [Habsent Hshadow].
  split; [apply Habsent; by left |].
  split; [apply Habsent; by right |].
  apply Hshadow; [discriminate | by repeat constructor].
Defined.

(** ** The normalizer: properties of the specification *)



(** C2 does not hold as stated: a row event whose type code has no entry in
    the dictionary of message classes gives no data event at all, the
    normalization raises. *)
Lemma row_expansion_unmapped_kind_raises :
  RowsEvent.rows Sample.v1_update = ["r1"; "r2"]
  ∧ _prepare_event Sample.fresh
      (Some (RowsEvent UpdateRowsEvent Sample.v1_update))
    = Raise (KeyError BINLOG.UPDATE_ROWS_EVENT_V1)
  ∧ ∀ units,
      _prepare_event Sample.fresh
        (Some (RowsEvent UpdateRowsEvent Sample.v1_update))
      ≠ Ok units.
Proof. split_and!; [reflexivity | reflexivity | discriminate]. Qed.

(** C2, amended.  For every row event whose kind is insert, update or
    delete (the three type codes of the dictionary of message classes) with
    rows [r1..rn], on any table, the normalization returns exactly [n] data
    events, in the order of the rows; each carries the schema and timestamp
    of the raw event, the current log file and offset of the stream (the
    same in all of them) and its own row.  On a table that is not a shadow
    table the table is the raw table and the message class is the create
    message for an insert, the update message for an update and the delete
    message for a delete; on a shadow table the table is the raw table
    without the suffix and the message class is the refresh message. *)
Theorem row_expansion {row} (self : Wrapper row) (cls : rows_class)
    (row_event : RowsEvent.t row) (mapped : message_class) :
  (RowsEvent.event_type row_event = BINLOG.WRITE_ROWS_EVENT_V2
   ∧ mapped = CreateMessage)
  ∨ (RowsEvent.event_type row_event = BINLOG.UPDATE_ROWS_EVENT_V2
     ∧ mapped = UpdateMessage)
  ∨ (RowsEvent.event_type row_event = BINLOG.DELETE_ROWS_EVENT_V2
     ∧ mapped = DeleteMessage) →
  ∃ (units : list (stream_unit row)) (target_table : string)
    (message_type : message_class),
    _prepare_event self (Some (RowsEvent cls row_event)) = Ok units
    ∧ length units = length (RowsEvent.rows row_event)
    ∧ (∀ (i : nat) (r : row),
         RowsEvent.rows row_event !! i = Some r →
         units !! i
         = Some (Data {| DataEvent.schema := RowsEvent.schema row_event;
                         DataEvent.table := target_table;
                         DataEvent.log_pos :=
                           BinLogStreamReader.log_pos (stream self);
                         DataEvent.log_file :=
                           BinLogStreamReader.log_file (stream self);
                         DataEvent.row := r;
                         DataEvent.timestamp :=
                           RowsEvent.timestamp row_event;
                         DataEvent.message_type := message_type |}))
    ∧ (PyStr.endswith (RowsEvent.table row_event) refresh_table_suffix
       = false →
       target_table = RowsEvent.table row_event ∧ message_type = mapped)
    ∧ (PyStr.endswith (RowsEvent.table row_event) refresh_table_suffix
       = true →
       RowsEvent.table row_event = target_table +:+ refresh_table_suffix
       ∧ message_type = RefreshMessage).
Proof.
  intros Hkind.
  assert (message_type_map !! RowsEvent.event_type row_event = Some mapped)
    as Hmt.
  { destruct Hkind as [[-> ->] | [[-> ->] | [-> ->]]]; reflexivity. }
  destruct (PyStr.endswith (RowsEvent.table row_event) refresh_table_suffix)
    eqn:Hs.
  - destruct (proj1 (endswith_true _ _) Hs) as [base Hbase].
    eexists _, base, RefreshMessage. split_and!.
    + simpl. by apply (rows_event_shadow _ _ mapped).
    + by rewrite length_fmap.
    + intros i r Hi. by rewrite list_lookup_fmap, Hi.
    + discriminate.
    + done.
  - eexists _, (RowsEvent.table row_event), mapped. split_and!.
    + simpl. by apply rows_event_plain.
    + by rewrite length_fmap.
    + intros i r Hi. by rewrite list_lookup_fmap, Hi.
    + done.
    + discriminate.
Qed.

Lemma row_expansion_witness :
  ∃ (units : list (stream_unit string)) (target_table : string)
    (message_type : message_class),
    _prepare_event Sample.fresh
      (Some (RowsEvent UpdateRowsEvent Sample.update3)) = Ok units
    ∧ length units = 3
    ∧ (∀ (i : nat) (r : string),
         ["r1"; "r2"; "r3"] !! i = Some r →
         units !! i
         = Some (Data {| DataEvent.schema := "shop";
                         DataEvent.table := target_table;
                         DataEvent.log_pos := 120;
                         DataEvent.log_file := "binlog.000007";
                         DataEvent.row := r;
                         DataEvent.timestamp := 1467000001;
                         DataEvent.message_type := message_type |}))
    ∧ (PyStr.endswith "orders" refresh_table_suffix = false →
       target_table = "orders" ∧ message_type = UpdateMessage)
    ∧ (PyStr.endswith "orders" refresh_table_suffix = true →
       "orders" = target_table +:+ refresh_table_suffix
       ∧ message_type = RefreshMessage).
Proof.
  apply (row_expansion Sample.fresh UpdateRowsEvent Sample.update3
           UpdateMessage).
  right; left; split; reflexivity.
Defined.

(** C3 does not hold as stated: one copy of the suffix is removed, so a
    table name that carries the suffix twice comes out with the suffix. *)
Lemma output_table_keeps_second_suffix :
  _prepare_event Sample.fresh
    (Some (RowsEvent WriteRowsEvent Sample.twice_shadow_insert))
  = Ok [Data {| DataEvent.schema := "shop";
                DataEvent.table := "orders_data_pipeline_refresh";
                DataEvent.log_pos := 120;
                DataEvent.log_file := "binlog.000007";
                DataEvent.row := "r1";
                DataEvent.timestamp := 1467000002;
                DataEvent.message_type := RefreshMessage |}]
  ∧ PyStr.endswith "orders_data_pipeline_refresh" refresh_table_suffix = true.
Proof. split; reflexivity. Qed.

(** C3, amended.  For every row event, the table of every data event the
    normalization gives ends with the shadow suffix exactly when the raw
    table name ends with two copies of it; for every other table name the
    output table does not end with the suffix. *)
Theorem output_table_suffix {row} (self : Wrapper row) (cls : rows_class)
    (row_event : RowsEvent.t row) (units : list (stream_unit row))
    (d : DataEvent.t row) :
  _prepare_event self (Some (RowsEvent cls row_event)) = Ok units →
  Data d ∈ units →
  PyStr.endswith (DataEvent.table d) refresh_table_suffix
  = PyStr.endswith (RowsEvent.table row_event)
      (refresh_table_suffix +:+ refresh_table_suffix).
Proof.
  simpl. intros Hrun Hin.
  destruct (rows_event_output_table _ _ _ _ Hrun Hin) as [[Hs ->] | ->].
  - rewrite Hs. symmetry. by apply endswith_twice_false.
  - symmetry. apply endswith_twice.
Qed.

Lemma output_table_suffix_witness :
  PyStr.endswith Sample.orders_shadow
    (refresh_table_suffix +:+ refresh_table_suffix) = false
  ∧ PyStr.endswith "orders" refresh_table_suffix = false.
Proof.
  split; [reflexivity |].
  transitivity (PyStr.endswith Sample.orders_shadow
                  (refresh_table_suffix +:+ refresh_table_suffix));
    [| reflexivity].
  apply (output_table_suffix Sample.fresh DeleteRowsEvent Sample.shadow_delete
           [Data {| DataEvent.schema := "shop";
                    DataEvent.table := "orders";
                    DataEvent.log_pos := 120;
                    DataEvent.log_file := "binlog.000007";
                    DataEvent.row := "r1";
                    DataEvent.timestamp := 1467000000;
                    DataEvent.message_type := RefreshMessage |}]
           {| DataEvent.schema := "shop";
              DataEvent.table := "orders";
              DataEvent.log_pos := 120;
              DataEvent.log_file := "binlog.000007";
              DataEvent.row := "r1";
              DataEvent.timestamp := 1467000000;
              DataEvent.message_type := RefreshMessage |});
    [reflexivity | apply list_elem_of_here].
Defined.

(** C4. For every row event whose type code has no entry in the dictionary
    of message classes, the normalization raises instead of returning a
    list without the rows of the event; the table name plays no part, so
    this also holds on a shadow table. *)
Theorem unmapped_kind_raises {row} (self : Wrapper row) (cls : rows_class)
    (row_event : RowsEvent.t row) :
  message_type_map !! RowsEvent.event_type row_event = None →
  _prepare_event self (Some (RowsEvent cls row_event))
  = Raise (KeyError (RowsEvent.event_type row_event)).
Proof. intros Hnone. simpl. by apply rows_event_unmapped. Qed.

Lemma unmapped_kind_raises_witness :
  PyStr.endswith (RowsEvent.table Sample.v1_shadow_insert)
    refresh_table_suffix = true
  ∧ message_type_map !! RowsEvent.event_type Sample.v1_shadow_insert = None
  ∧ _prepare_event Sample.fresh
      (Some (RowsEvent WriteRowsEvent Sample.v1_shadow_insert))
    = Raise (KeyError BINLOG.WRITE_ROWS_EVENT_V1).
Proof.
  split; [reflexivity |]. split; [reflexivity |].
  apply (unmapped_kind_raises Sample.fresh WriteRowsEvent
           Sample.v1_shadow_insert).
  reflexivity.
Defined.

(** C9. For every metadata event (schema change or transaction marker) the
    normalization returns a list of one unit: that event, of the same
    class, with the current log offset and log file of the stream assigned
    to its [log_pos] and [log_file] attributes, whatever they held before,
    and with every other attribute unchanged. *)
Theorem metadata_passthrough {row} (self : Wrapper row)
    (cls : metadata_class) (attrs : gmap string pyval) :
  ∃ stamped : gmap string pyval,
    _prepare_event self (Some (MetadataEvent cls attrs))
    = Ok [Metadata cls stamped]
    ∧ stamped !! "log_pos"
      = Some (PyInt (BinLogStreamReader.log_pos (stream self)))
    ∧ stamped !! "log_file"
      = Some (PyStr (BinLogStreamReader.log_file (stream self)))
    ∧ ∀ a : string,
        a ≠ "log_pos" → a ≠ "log_file" → stamped !! a = attrs !! a.
Proof.
  eexists. split_and!.
  - reflexivity.
  - rewrite lookup_insert_ne by done. apply lookup_insert_eq.
  - apply lookup_insert_eq.
  - intros a Hpos Hfile. by rewrite !lookup_insert_ne.
Qed.

Lemma metadata_passthrough_witness :
  ∃ stamped : gmap string pyval,
    _prepare_event Sample.fresh
      (Some (MetadataEvent QueryEvent Sample.alter_table))
    = Ok [Metadata QueryEvent stamped]
    ∧ stamped !! "log_pos" = Some (PyInt 120)
    ∧ stamped !! "log_file" = Some (PyStr "binlog.000007")
    ∧ ∀ a : string,
        a ≠ "log_pos" → a ≠ "log_file" →
        stamped !! a = Sample.alter_table !! a.
Proof. apply (metadata_passthrough Sample.fresh). Defined.

(** ** The refill: properties of the specification *)

(** C5. The refill pulls from the raw stream only when the buffer is
    empty.  With a unit in the buffer it changes neither the buffer nor the
    stream, so nothing is pulled.  With an empty buffer it pulls exactly
    once, normalizes what was pulled with the position the stream then has,
    and appends all the resulting units (there may be none) to the buffer
    in order; if the normalization raises, so does the refill, after that
    one pull and with the buffer still empty. *)
Theorem refill_only_when_empty {row} (self : Wrapper row) :
  (current_events self ≠ [] → _refill_current_events self = (Ok tt, self))
  ∧ (current_events self = [] →
     let pull := BinLogStreamReader.fetchone (stream self) in
     let pulled := {| current_events := []; stream := pull.2 |} in
     BinLogStreamReader.fetched pull.2
     = S (BinLogStreamReader.fetched (stream self))
     ∧ (∀ units,
          _prepare_event pulled pull.1 = Ok units →
          _refill_current_events self
          = (Ok tt,
             {| current_events := current_events self ++ units;
                stream := pull.2 |}))
     ∧ (∀ e,
          _prepare_event pulled pull.1 = Raise e →
          _refill_current_events self = (Raise e, pulled))).
Proof.
  split; [apply refill_pending |].
  intros Hnil pull pulled. split; [reflexivity |].
  pose proof (refill_empty self Hnil) as Hrun. cbv zeta in Hrun.
  subst pull pulled. rewrite Hnil. split.
  - intros units Hunits. by rewrite Hunits in Hrun.
  - intros e He. by rewrite He in Hrun.
Qed.

Lemma refill_only_when_empty_witness :
  _refill_current_events Sample.pending = (Ok tt, Sample.pending)
  ∧ _refill_current_events Sample.fresh
    = (Ok tt,
       {| current_events :=
            (λ r,
               Data {| DataEvent.schema := "shop";
                       DataEvent.table := "orders";
                       DataEvent.log_pos := 420;
                       DataEvent.log_file := "binlog.000007";
                       DataEvent.row := r;
                       DataEvent.timestamp := 1467000001;
                       DataEvent.message_type := UpdateMessage |})
              <$> ["r1"; "r2"; "r3"];
          stream :=
            {| BinLogStreamReader.feed := Sample.feed;
               BinLogStreamReader.fetched := 1;
               BinLogStreamReader.log_file := "binlog.000007";
               BinLogStreamReader.log_pos := 420 |} |}).
Proof.
  split.
  - apply (proj1 (refill_only_when_empty Sample.pending)). discriminate.
  - destruct (proj2 (refill_only_when_empty Sample.fresh) eq_refl)
      as (_ & Hok & _).
    apply Hok. reflexivity.
Defined.

(** C10 does not hold as stated: a row event with no rows whose type code
    has no entry in the dictionary raises instead of giving the empty
    list. *)
Lemma empty_rows_unmapped_kind_raises :
  RowsEvent.rows Sample.v1_insert_no_rows = []
  ∧ _prepare_event Sample.fresh
      (Some (RowsEvent WriteRowsEvent Sample.v1_insert_no_rows))
    = Raise (KeyError BINLOG.WRITE_ROWS_EVENT_V1)
  ∧ _prepare_event Sample.fresh
      (Some (RowsEvent WriteRowsEvent Sample.v1_insert_no_rows))
    ≠ Ok [].
Proof. split_and!; [reflexivity | reflexivity | discriminate]. Qed.

(** C10, amended.  For every row event whose type code has an entry in the
    dictionary and whose rows are empty, the normalization returns the
    empty list; a refill on an empty buffer that pulls such an event
    appends nothing, and [peek] then returns the absent value although the
    stream did deliver an event. *)
Theorem empty_rows_refill {row} (self : Wrapper row) (cls : rows_class)
    (row_event : RowsEvent.t row) :
  is_Some (message_type_map !! RowsEvent.event_type row_event) →
  RowsEvent.rows row_event = [] →
  current_events self = [] →
  (BinLogStreamReader.fetchone (stream self)).1
  = Some (RowsEvent cls row_event) →
  let after :=
    {| current_events := [];
       stream := (BinLogStreamReader.fetchone (stream self)).2 |} in
  (∀ self', _prepare_event self' (Some (RowsEvent cls row_event)) = Ok [])
  ∧ _refill_current_events self = (Ok tt, after)
  ∧ peek self = (Ok None, after)
  ∧ BinLogStreamReader.fetched (stream after)
    = S (BinLogStreamReader.fetched (stream self)).
Proof.
  intros [mt Hmt] Hrows Hnil Hpull after.
  assert (∀ self', _prepare_event self' (Some (RowsEvent cls row_event))
                   = Ok []) as Hnorm.
  { intros self'. simpl. unfold _get_data_events_from_row_event.
    rewrite Hmt, Hrows.
    by destruct (PyStr.endswith _ _). }
  assert (_refill_current_events self = (Ok tt, after)) as Hrefill.
  { rewrite (refill_empty self Hnil). cbv zeta. rewrite Hpull.
    by rewrite Hnorm. }
  split_and!; [done | done | | done].
  unfold peek, WrapperMonad.bind, WrapperMonad.get_self. simpl.
  rewrite Hnil. simpl. by rewrite Hrefill.
Qed.

Lemma empty_rows_refill_witness :
  _prepare_event Sample.before_empty_insert
    (Some (RowsEvent WriteRowsEvent Sample.insert_no_rows)) = Ok []
  ∧ peek Sample.before_empty_insert
    = (Ok None,
       {| current_events := [];
          stream :=
            {| BinLogStreamReader.feed := Sample.feed;
               BinLogStreamReader.fetched := 2;
               BinLogStreamReader.log_file := "binlog.000007";
               BinLogStreamReader.log_pos := 512 |} |}).
Proof.
  destruct (empty_rows_refill Sample.before_empty_insert WriteRowsEvent
              Sample.insert_no_rows)
    as (Hnorm & _ & Hpeek & _);
    [by eexists | reflexivity | reflexivity | reflexivity |].
  split; [apply Hnorm | exact Hpeek].
Defined.

(** ** Further properties of the table filter *)

(** The list the loop builds, in closed form: the whitelisted names that are
    not shadow names, in their order, each followed by its shadow name. *)
Lemma only_tables_loop_shape (W : list string) :
  only_tables_loop W []
  = concat ((λ t, [t; t +:+ refresh_table_suffix])
              <$> filter (λ t, PyStr.endswith t refresh_table_suffix = false)
                         W).
Proof.
  induction W as [|t W IH]; [done |].
  destruct (PyStr.endswith t refresh_table_suffix) eqn:Ht.
  - rewrite only_tables_loop_skip by done.
    by rewrite filter_cons_False by congruence.
  - rewrite only_tables_loop_keep by done.
    rewrite filter_cons_True by done. simpl. by rewrite IH.
Qed.

(** Run on its own output, the loop gives that output back: the names it
    kept are kept again, the shadow names it added are skipped and added
    again. *)
Lemma only_tables_loop_again (W : list string) :
  only_tables_loop (only_tables_loop W []) [] = only_tables_loop W [].
Proof.
  induction W as [|t W IH]; [done |].
  destruct (PyStr.endswith t refresh_table_suffix) eqn:Ht.
  - by rewrite only_tables_loop_skip.
  - rewrite (only_tables_loop_keep t W) by done.
    rewrite only_tables_loop_keep by done.
    rewrite only_tables_loop_skip by apply endswith_app.
    by rewrite IH.
Qed.

(** X1. Every entry of a computed filter belongs to a pair: it is a
    whitelisted name that does not end with the shadow suffix, or the shadow
    name of such a name, and both members of the pair are in the filter.  So
    a shadow table is never delivered without its underlying table being
    whitelisted. *)
Theorem filter_entry_has_whitelisted_base (W res : list string) (x : string) :
  _get_only_tables (Some W) = Some res →
  x ∈ res →
  ∃ t,
    t ∈ W
    ∧ PyStr.endswith t refresh_table_suffix = false
    ∧ (x = t ∨ x = t +:+ refresh_table_suffix)
    ∧ t ∈ res
    ∧ t +:+ refresh_table_suffix ∈ res.
Proof.
  intros Hrun. apply _get_only_tables_Some in Hrun as ->.
  intros (t & Ht & Hs & Hx)%elem_of_only_tables_loop.
  exists t. split_and!; try done.
  - apply elem_of_only_tables_loop. exists t. auto.
  - apply elem_of_only_tables_loop. exists t. auto.
Qed.

Lemma filter_entry_has_whitelisted_base_witness :
  ∃ t,
    t ∈ ["users_data_pipeline_refresh"; "orders"]
    ∧ PyStr.endswith t refresh_table_suffix = false
    ∧ ("orders_data_pipeline_refresh" = t
       ∨ "orders_data_pipeline_refresh" = t +:+ refresh_table_suffix)
    ∧ t ∈ ["orders"; "orders_data_pipeline_refresh"]
    ∧ t +:+ refresh_table_suffix ∈ ["orders"; "orders_data_pipeline_refresh"].
Proof.
  apply (filter_entry_has_whitelisted_base
           ["users_data_pipeline_refresh"; "orders"]);
    [reflexivity |].
  apply list_elem_of_further, list_elem_of_here.
Defined.

(** X2. For every whitelist, shadow names or not, the computed filter is the
    list of the whitelisted names that do not end with the suffix, in the
    order of the whitelist, each immediately followed by its shadow name;
    its length is twice the number of those names. *)
Theorem filter_shape (W res : list string) :
  _get_only_tables (Some W) = Some res →
  res = concat ((λ t, [t; t +:+ refresh_table_suffix])
                  <$> filter
                        (λ t, PyStr.endswith t refresh_table_suffix = false)
                        W)
  ∧ length res
    = 2 * length (filter
                    (λ t, PyStr.endswith t refresh_table_suffix = false) W).
Proof.
  intros Hrun. apply _get_only_tables_Some in Hrun as ->.
  rewrite only_tables_loop_shape. split; [done |].
  generalize (filter (λ t, PyStr.endswith t refresh_table_suffix = false) W).
  intros kept. induction kept as [|t kept IH]; [done |].
  rewrite fmap_cons, concat_cons, List.length_app, IH. simpl. lia.
Qed.

Lemma filter_shape_witness :
  ["users"; "users_data_pipeline_refresh";
   "orders"; "orders_data_pipeline_refresh"]
  = concat ((λ t, [t; t +:+ refresh_table_suffix])
              <$> filter
                    (λ t, PyStr.endswith t refresh_table_suffix = false)
                    ["users"; "orders_data_pipeline_refresh"; "orders"])
  ∧ length ["users"; "users_data_pipeline_refresh";
            "orders"; "orders_data_pipeline_refresh"]
    = 2 * length (filter
                    (λ t, PyStr.endswith t refresh_table_suffix = false)
                    ["users"; "orders_data_pipeline_refresh"; "orders"]).
Proof.
  apply (filter_shape ["users"; "orders_data_pipeline_refresh"; "orders"]).
  reflexivity.
Defined.

(** X3. Computing the filter of a computed filter changes nothing when the
    filter has entries; when the filter is the empty list (a whitelist of
    shadow names only), computing it again gives the absent value, that is
    no filter at all. *)
Theorem filter_of_filter (W res : list string) :
  _get_only_tables (Some W) = Some res →
  (res ≠ [] → _get_only_tables (Some res) = Some res)
  ∧ (res = [] → _get_only_tables (Some res) = None).
Proof.
  intros Hrun. apply _get_only_tables_Some in Hrun as ->. split.
  - intros Hne. rewrite _get_only_tables_nonempty by done.
    by rewrite only_tables_loop_again.
  - by intros ->.
Qed.

Lemma filter_of_filter_witness :
  _get_only_tables (Some ["orders"; "orders_data_pipeline_refresh"])
  = Some ["orders"; "orders_data_pipeline_refresh"]
  ∧ _get_only_tables (Some ["orders_data_pipeline_refresh"]) = Some []
  ∧ _get_only_tables (Some []) = None.
Proof.
  split.
  - apply (proj1 (filter_of_filter ["orders"]
                    ["orders"; "orders_data_pipeline_refresh"] eq_refl)).
    discriminate.
  - split; [reflexivity |].
    apply (proj2 (filter_of_filter ["orders_data_pipeline_refresh"] []
                    eq_refl)).
    reflexivity.
Defined.

(** X4. Which tables a computed filter holds depends only on which names
    the whitelist holds, not on their order or on repetitions: two
    whitelists with the same names give filters with the same entries. *)
Theorem filter_entries_depend_on_names (W1 W2 res1 res2 : list string) :
  (∀ t, t ∈ W1 ↔ t ∈ W2) →
  _get_only_tables (Some W1) = Some res1 →
  _get_only_tables (Some W2) = Some res2 →
  ∀ x, x ∈ res1 ↔ x ∈ res2.
Proof.
  intros Hsame Hrun1 Hrun2 x.
  apply _get_only_tables_Some in Hrun1 as ->.
  apply _get_only_tables_Some in Hrun2 as ->.
  rewrite !elem_of_only_tables_loop.
  split; intros (t & Ht & Hrest); exists t; split; auto; by apply Hsame.
Qed.

Lemma filter_entries_depend_on_names_witness :
  "users_data_pipeline_refresh"
    ∈ ["orders"; "orders_data_pipeline_refresh";
       "users"; "users_data_pipeline_refresh"]
  ↔ "users_data_pipeline_refresh"
      ∈ ["users"; "users_data_pipeline_refresh";
         "orders"; "orders_data_pipeline_refresh";
         "users"; "users_data_pipeline_refresh"].
Proof.
  apply (filter_entries_depend_on_names
           ["orders"; "users"] ["users"; "orders"; "users"]);
    [| reflexivity | reflexivity].
  intros t. rewrite !elem_of_cons, !elem_of_nil. tauto.
Defined.

(** ** Further properties of the normalizer *)

(** No type code is mapped to the refresh message. *)
Lemma message_type_map_not_refresh (k : Z) (message_type : message_class) :
  message_type_map !! k = Some message_type → message_type ≠ RefreshMessage.
Proof.
  unfold message_type_map.
  rewrite !lookup_insert_Some, lookup_singleton_Some.
  intros [[_ <-] | [_ [[_ <-] | [_ [_ <-]]]]]; discriminate.
Qed.

(** Whenever the conversion of a row event returns, it is the list of one
    data event per row, all with the same table and message class: those of
    a plain table, or those of a shadow table. *)
Lemma rows_event_Ok_inv {row} (self : Wrapper row)
    (row_event : RowsEvent.t row) (units : list (stream_unit row)) :
  _get_data_events_from_row_event self row_event = Ok units →
  ∃ (mapped : message_class) (target_table : string)
    (message_type : message_class),
    message_type_map !! RowsEvent.event_type row_event = Some mapped
    ∧ units
      = (λ r,
           Data {| DataEvent.schema := RowsEvent.schema row_event;
                   DataEvent.table := target_table;
                   DataEvent.log_pos :=
                     BinLogStreamReader.log_pos (stream self);
                   DataEvent.log_file :=
                     BinLogStreamReader.log_file (stream self);
                   DataEvent.row := r;
                   DataEvent.timestamp := RowsEvent.timestamp row_event;
                   DataEvent.message_type := message_type |})
          <$> RowsEvent.rows row_event
    ∧ ((PyStr.endswith (RowsEvent.table row_event) refresh_table_suffix
        = false
        ∧ target_table = RowsEvent.table row_event
        ∧ message_type = mapped)
       ∨ (PyStr.endswith (RowsEvent.table row_event) refresh_table_suffix
          = true
          ∧ RowsEvent.table row_event
            = target_table +:+ refresh_table_suffix
          ∧ message_type = RefreshMessage)).
Proof.
  intros Hrun.
  destruct (message_type_map !! RowsEvent.event_type row_event)
    as [mt|] eqn:Hk;
    [| by rewrite rows_event_unmapped in Hrun].
  destruct (PyStr.endswith (RowsEvent.table row_event) refresh_table_suffix)
    eqn:Hs.
  - destruct (proj1 (endswith_true _ _) Hs) as [base Hbase].
    rewrite (rows_event_shadow _ _ mt base) in Hrun by done.
    injection Hrun as <-. exists mt, base, RefreshMessage.
    split_and!; [done | done |]. right. by rewrite <- Hbase.
  - rewrite (rows_event_plain _ _ mt) in Hrun by done.
    injection Hrun as <-. exists mt, (RowsEvent.table row_event), mt.
    split_and!; [done | done |]. by left.
Qed.

(** X5. Under a whitelist, a row event on a table of the computed filter
    only yields data events for a whitelisted table: the table of each data
    event is a name of the whitelist that does not end with the suffix.  The
    event is reported as a refresh of that table when the raw table is its
    shadow table, and with a message class other than refresh when the raw
    table is the table itself. *)
Theorem filtered_event_reports_whitelisted_table {row} (self : Wrapper row)
    (cls : rows_class) (row_event : RowsEvent.t row)
    (W res : list string) (units : list (stream_unit row))
    (d : DataEvent.t row) :
  _get_only_tables (Some W) = Some res →
  RowsEvent.table row_event ∈ res →
  _prepare_event self (Some (RowsEvent cls row_event)) = Ok units →
  Data d ∈ units →
  DataEvent.table d ∈ W
  ∧ PyStr.endswith (DataEvent.table d) refresh_table_suffix = false
  ∧ ((RowsEvent.table row_event
      = DataEvent.table d +:+ refresh_table_suffix
      ∧ DataEvent.message_type d = RefreshMessage)
     ∨ (RowsEvent.table row_event = DataEvent.table d
        ∧ DataEvent.message_type d ≠ RefreshMessage)).
Proof.
  intros Hfilter Hin Hrun Hd. simpl in Hrun.
  apply _get_only_tables_Some in Hfilter as ->.
  apply elem_of_only_tables_loop in Hin as (t & Ht & Hs & Htable).
  apply rows_event_Ok_inv in Hrun
    as (mt & target & mk & Hmt & -> & Hcase).
  apply list_elem_of_fmap in Hd as (r & [= ->] & _). simpl.
  destruct Hcase as [(Hplain & -> & ->) | (Hshadow & Hbase & ->)].
  - destruct Htable as [Heq | Heq].
    + rewrite Heq. split_and!; [done | done |]. right.
      split; [done | by eapply message_type_map_not_refresh].
    + rewrite Heq, endswith_app in Hplain. discriminate.
  - destruct Htable as [Heq | Heq].
    + rewrite Heq in Hshadow. congruence.
    + rewrite Heq in Hbase. apply app_inj_r in Hbase as <-.
      split_and!; [done | done |]. by left.
Qed.

Lemma filtered_event_reports_whitelisted_table_witness :
  "orders" ∈ ["users"; "orders"]
  ∧ PyStr.endswith "orders" refresh_table_suffix = false
  ∧ ((Sample.orders_shadow = "orders" +:+ refresh_table_suffix
      ∧ RefreshMessage = RefreshMessage)
     ∨ (Sample.orders_shadow = "orders"
        ∧ RefreshMessage ≠ RefreshMessage)).
Proof.
  apply (filtered_event_reports_whitelisted_table Sample.fresh
           DeleteRowsEvent Sample.shadow_delete ["users"; "orders"]
           ["users"; "users_data_pipeline_refresh";
            "orders"; "orders_data_pipeline_refresh"]
           [Data {| DataEvent.schema := "shop";
                    DataEvent.table := "orders";
                    DataEvent.log_pos := 120;
                    DataEvent.log_file := "binlog.000007";
                    DataEvent.row := "r1";
                    DataEvent.timestamp := 1467000000;
                    DataEvent.message_type := RefreshMessage |}]
           {| DataEvent.schema := "shop";
              DataEvent.table := "orders";
              DataEvent.log_pos := 120;
              DataEvent.log_file := "binlog.000007";
              DataEvent.row := "r1";
              DataEvent.timestamp := 1467000000;
              DataEvent.message_type := RefreshMessage |});
    [reflexivity | | reflexivity | apply list_elem_of_here].
  do 3 apply list_elem_of_further. apply list_elem_of_here.
Defined.

(** What a raised normalization tells about the event. *)
Lemma prepare_event_Raise_inv {row} (self : Wrapper row)
    (event : option (binlog_event row)) (e : exn) :
  _prepare_event self event = Raise e →
  ∃ (cls : rows_class) (row_event : RowsEvent.t row),
    event = Some (RowsEvent cls row_event)
    ∧ message_type_map !! RowsEvent.event_type row_event = None
    ∧ e = KeyError (RowsEvent.event_type row_event).
Proof.
  destruct event as [[cls attrs | cls row_event | attrs]|]; simpl;
    try discriminate.
  intros Hrun. exists cls, row_event.
  destruct (message_type_map !! RowsEvent.event_type row_event)
    as [mt|] eqn:Hk.
  - exfalso. unfold _get_data_events_from_row_event in Hrun.
    rewrite Hk in Hrun.
    by destruct (PyStr.endswith _ _).
  - rewrite rows_event_unmapped in Hrun by done.
    injection Hrun as <-. done.
Qed.

(** What an empty normalization tells about the event. *)
Lemma prepare_event_nil_inv {row} (self : Wrapper row)
    (event : option (binlog_event row)) :
  _prepare_event self event = Ok [] →
  event = None
  ∨ (∃ attrs, event = Some (OtherEvent attrs))
  ∨ (∃ (cls : rows_class) (row_event : RowsEvent.t row),
       event = Some (RowsEvent cls row_event)
       ∧ is_Some (message_type_map !! RowsEvent.event_type row_event)
       ∧ RowsEvent.rows row_event = []).
Proof.
  destruct event as [[cls attrs | cls row_event | attrs]|]; simpl.
  - discriminate.
  - intros Hrun. right. right. exists cls, row_event.
    apply rows_event_Ok_inv in Hrun
      as (mt & target & mk & Hmt & Hunits & _).
    split_and!; [done | by exists mt |].
    symmetry in Hunits. by apply fmap_nil_inv in Hunits.
  - intros _. right. left. by exists attrs.
  - intros _. by left.
Qed.

(** X6. The normalization raises in one case only: the event is a row event
    whose type code has no entry in the dictionary of message classes, and
    the exception is the [KeyError] of that code.  An absent event, a
    metadata event and an event of any other class never raise. *)
Theorem prepare_event_raises_iff {row} (self : Wrapper row)
    (event : option (binlog_event row)) (e : exn) :
  _prepare_event self event = Raise e
  ↔ ∃ (cls : rows_class) (row_event : RowsEvent.t row),
      event = Some (RowsEvent cls row_event)
      ∧ message_type_map !! RowsEvent.event_type row_event = None
      ∧ e = KeyError (RowsEvent.event_type row_event).
Proof.
  split.
  - apply prepare_event_Raise_inv.
  - intros (cls & row_event & -> & Hk & ->). simpl.
    by apply rows_event_unmapped.
Qed.

(** X7. The normalization returns the empty list in three cases only: no
    event was delivered, the event is of a class the wrapper does not
    handle, or it is a row event with a mapped type code and no rows. *)
Theorem prepare_event_empty_iff {row} (self : Wrapper row)
    (event : option (binlog_event row)) :
  _prepare_event self event = Ok []
  ↔ event = None
    ∨ (∃ attrs, event = Some (OtherEvent attrs))
    ∨ (∃ (cls : rows_class) (row_event : RowsEvent.t row),
         event = Some (RowsEvent cls row_event)
         ∧ is_Some (message_type_map !! RowsEvent.event_type row_event)
         ∧ RowsEvent.rows row_event = []).
Proof.
  split.
  - apply prepare_event_nil_inv.
  - intros [-> | [[attrs ->] | (cls & row_event & -> & [mt Hmt] & Hrows)]];
      [done | done |].
    simpl. unfold _get_data_events_from_row_event. rewrite Hmt, Hrows.
    by destruct (PyStr.endswith _ _).
Qed.

(** X8. Whenever the normalization of a row event returns, every unit is a
    data event, the rows of the units are the rows of the event in their
    order, and the message class of every unit is the refresh message
    exactly when the raw table name ends with the shadow suffix. *)
Theorem rows_event_units {row} (self : Wrapper row) (cls : rows_class)
    (row_event : RowsEvent.t row) (units : list (stream_unit row)) :
  _prepare_event self (Some (RowsEvent cls row_event)) = Ok units →
  Forall2 (λ u r, ∃ d, u = Data d ∧ DataEvent.row d = r)
          units (RowsEvent.rows row_event)
  ∧ ∀ d, Data d ∈ units →
         (DataEvent.message_type d = RefreshMessage
          ↔ PyStr.endswith (RowsEvent.table row_event) refresh_table_suffix
            = true).
Proof.
  simpl. intros Hrun.
  apply rows_event_Ok_inv in Hrun as (mt & target & mk & Hmt & -> & Hcase).
  split.
  - apply Forall2_fmap_l, Forall_Forall2_diag, Forall_forall.
    intros r _. by eexists.
  - intros d (r & [= ->] & _)%list_elem_of_fmap. simpl.
    destruct Hcase as [(Hplain & _ & ->) | (Hshadow & _ & ->)].
    + rewrite Hplain. split; [| discriminate].
      intros Heq. by apply message_type_map_not_refresh in Hmt.
    + by rewrite Hshadow.
Qed.

Lemma rows_event_units_witness :
  Forall2 (λ u r, ∃ d, u = Data d ∧ DataEvent.row d = r)
    ((λ r,
        Data {| DataEvent.schema := "shop";
                DataEvent.table := "orders";
                DataEvent.log_pos := 120;
                DataEvent.log_file := "binlog.000007";
                DataEvent.row := r;
                DataEvent.timestamp := 1467000001;
                DataEvent.message_type := UpdateMessage |})
       <$> ["r1"; "r2"; "r3"])
    ["r1"; "r2"; "r3"].
Proof.
  apply (rows_event_units Sample.fresh UpdateRowsEvent Sample.update3).
  reflexivity.
Defined.

(** ** Further properties of the refill *)

Section RefillFacts.

Context {row : Type}.

Implicit Types (self : Wrapper row) (s : BinLogStreamReader.t row).

Lemma stream_after_pulls_feed (n : nat) s :
  BinLogStreamReader.feed (stream_after_pulls n s)
  = BinLogStreamReader.feed s.
Proof.
  revert s. induction n as [|n IH]; intros s; [done |].
  exact (IH (BinLogStreamReader.fetchone s).2).
Qed.

Lemma stream_after_pulls_fetched (n : nat) s :
  BinLogStreamReader.fetched (stream_after_pulls n s)
  = BinLogStreamReader.fetched s + n.
Proof.
  revert s. induction n as [|n IH]; intros s; simpl; [lia |].
  rewrite IH. simpl. lia.
Qed.

(** The outcome of one refill on an empty buffer, by the outcome of the
    normalization of the pulled event. *)
Lemma refill_empty_Ok self (units : list (stream_unit row)) :
  current_events self = [] →
  _prepare_event
    {| current_events := [];
       stream := (BinLogStreamReader.fetchone (stream self)).2 |}
    (BinLogStreamReader.fetchone (stream self)).1 = Ok units →
  _refill_current_events self
  = (Ok tt,
     {| current_events := units;
        stream := (BinLogStreamReader.fetchone (stream self)).2 |}).
Proof.
  intros Hnil Hunits. rewrite (refill_empty self Hnil). cbv zeta.
  by rewrite Hunits.
Qed.

Lemma refill_empty_Raise self (e : exn) :
  current_events self = [] →
  _prepare_event
    {| current_events := [];
       stream := (BinLogStreamReader.fetchone (stream self)).2 |}
    (BinLogStreamReader.fetchone (stream self)).1 = Raise e →
  _refill_current_events self
  = (Raise e,
     {| current_events := [];
        stream := (BinLogStreamReader.fetchone (stream self)).2 |}).
Proof.
  intros Hnil He. rewrite (refill_empty self Hnil). cbv zeta.
  by rewrite He.
Qed.

(** With a unit pending, any number of refills does nothing. *)
Lemma refill_times_pending (m : nat) self :
  current_events self ≠ [] → refill_times m self = (Ok tt, self).
Proof.
  intros Hne. induction m as [|m IH]; [done |].
  simpl. unfold WrapperMonad.bind. by rewrite refill_pending.
Qed.

(** Every unit the normalization returns carries the current position of
    the stream. *)
Lemma prepare_event_stamped self (event : option (binlog_event row))
    (units : list (stream_unit row)) :
  _prepare_event self event = Ok units →
  Forall (stamped_at (BinLogStreamReader.log_file (stream self))
                     (BinLogStreamReader.log_pos (stream self)))
         units.
Proof.
  destruct event as [[cls attrs | cls row_event | attrs]|]; simpl.
  - intros [= <-]. apply Forall_singleton. simpl. split.
    + rewrite lookup_insert_ne by done. apply lookup_insert_eq.
    + apply lookup_insert_eq.
  - intros (mt & target & mk & _ & -> & _)%rows_event_Ok_inv.
    apply Forall_fmap, Forall_forall. by intros r _.
  - intros [= <-]. apply Forall_nil_2.
  - intros [= <-]. apply Forall_nil_2.
Qed.

(** One refill keeps the buffer at the position of the stream. *)
Lemma refill_keeps_positions self :
  buffer_at_stream_position self →
  buffer_at_stream_position (_refill_current_events self).2.
Proof.
  intros Hinv. destruct (current_events self) as [|u buffer] eqn:Hbuffer.
  - destruct (_prepare_event
                {| current_events := [];
                   stream := (BinLogStreamReader.fetchone (stream self)).2 |}
                (BinLogStreamReader.fetchone (stream self)).1)
      as [units | e] eqn:Hnorm.
    + rewrite (refill_empty_Ok self units) by done.
      apply prepare_event_stamped in Hnorm. exact Hnorm.
    + rewrite (refill_empty_Raise self e) by done. apply Forall_nil_2.
  - rewrite refill_pending by (by rewrite Hbuffer). exact Hinv.
Qed.

End RefillFacts.

(** X10. The refill keeps the buffer at the position of the stream: if every
    buffered unit carries the current log file and offset of the stream,
    then so it is after any number of refills, failed ones included.  The
    units of a refill are stamped with the position the stream has after
    that pull, and no pull is made while they are pending. *)
Theorem refill_times_keeps_positions {row} (n : nat) (self : Wrapper row) :
  buffer_at_stream_position self →
  buffer_at_stream_position (refill_times n self).2.
Proof.
  revert self. induction n as [|n IH]; intros self Hinv; [done |].
  simpl. unfold WrapperMonad.bind.
  pose proof (refill_keeps_positions self Hinv) as Hstep.
  destruct (_refill_current_events self) as [[[]|e] self1]; simpl in *.
  - by apply IH.
  - done.
Qed.

Lemma refill_times_keeps_positions_witness :
  buffer_at_stream_position Sample.fresh
  ∧ buffer_at_stream_position (refill_times 3 Sample.fresh).2.
Proof.
  assert (buffer_at_stream_position Sample.fresh) as Hinv
    by apply Forall_nil_2.
  split; [exact Hinv |].
  apply (refill_times_keeps_positions 3 Sample.fresh Hinv).
Defined.

(** X11. Repeated refills skip the events that normalize to nothing and stop
    at the first one that yields units.  Starting with an empty buffer, if
    the next [k] pulled events each normalize to the empty list and the one
    after them to a non-empty list [units], then after [k + 1] or more
    refills the buffer is exactly [units] and exactly [k + 1] pulls have
    been made, however many more refills were called. *)
Theorem refill_times_first_units {row} (self : Wrapper row) (k m : nat)
    (units : list (stream_unit row)) :
  current_events self = [] →
  (∀ i, i < k →
        _prepare_event
          {| current_events := [];
             stream := stream_after_pulls (S i) (stream self) |}
          (BinLogStreamReader.event
             (BinLogStreamReader.feed (stream self)
                (BinLogStreamReader.fetched (stream self) + i)))
        = Ok []) →
  _prepare_event
    {| current_events := [];
       stream := stream_after_pulls (S k) (stream self) |}
    (BinLogStreamReader.event
       (BinLogStreamReader.feed (stream self)
          (BinLogStreamReader.fetched (stream self) + k)))
  = Ok units →
  units ≠ [] →
  refill_times (S k + m) self
  = (Ok tt,
     {| current_events := units;
        stream := stream_after_pulls (S k) (stream self) |})
  ∧ BinLogStreamReader.fetched (stream_after_pulls (S k) (stream self))
    = BinLogStreamReader.fetched (stream self) + S k.
Proof.
  intros Hnil Hskip Hunits Hne.
  split; [| apply stream_after_pulls_fetched].
  revert self Hnil Hskip Hunits.
  induction k as [|k IH]; intros self Hnil Hskip Hunits.
  - change (refill_times (1 + m) self)
      with (WrapperMonad.bind _refill_current_events
              (λ _, refill_times m) self).
    unfold WrapperMonad.bind.
    rewrite Nat.add_0_r in Hunits.
    rewrite (refill_empty_Ok self units Hnil Hunits).
    by apply refill_times_pending.
  - change (refill_times (S (S k) + m) self)
      with (WrapperMonad.bind _refill_current_events
              (λ _, refill_times (S k + m)) self).
    unfold WrapperMonad.bind.
    pose proof (Hskip 0 ltac:(lia)) as Hfirst.
    rewrite Nat.add_0_r in Hfirst.
    rewrite (refill_empty_Ok self [] Hnil Hfirst).
    apply IH; simpl.
    + done.
    + intros i Hi. specialize (Hskip (S i) ltac:(lia)).
      by rewrite Nat.add_succ_r in Hskip.
    + by rewrite Nat.add_succ_r in Hunits.
Qed.

Lemma refill_times_first_units_witness :
  refill_times 4 Sample.before_empty_insert
  = (Ok tt,
     {| current_events :=
          [Metadata QueryEvent
             (<["log_file" := PyStr "binlog.000007"]>
                (<["log_pos" := PyInt 640]> Sample.alter_table))];
        stream := stream_after_pulls 2 (Sample.stream_at 1) |})
  ∧ BinLogStreamReader.fetched (stream_after_pulls 2 (Sample.stream_at 1))
    = 1 + 2.
Proof.
  apply (refill_times_first_units Sample.before_empty_insert 1 2).
  - reflexivity.
  - intros i Hi. assert (i = 0) as -> by lia. reflexivity.
  - reflexivity.
  - discriminate.
Defined.

(** X12. A row event that cannot be normalized is lost by the refill.  If
    the buffer is empty and the pull returns a row event whose type code has
    no entry in the dictionary of message classes, the refill raises the
    [KeyError] of that code after that one pull; the buffer is still empty,
    the stream is past the event, and the next pull delivers the event that
    follows it: the failing event is not seen again. *)
Theorem refill_unmapped_event_is_consumed {row} (self : Wrapper row)
    (cls : rows_class) (row_event : RowsEvent.t row) :
  current_events self = [] →
  (BinLogStreamReader.fetchone (stream self)).1
  = Some (RowsEvent cls row_event) →
  message_type_map !! RowsEvent.event_type row_event = None →
  ∃ self',
    _refill_current_events self
    = (Raise (KeyError (RowsEvent.event_type row_event)), self')
    ∧ current_events self' = []
    ∧ BinLogStreamReader.fetched (stream self')
      = S (BinLogStreamReader.fetched (stream self))
    ∧ (BinLogStreamReader.fetchone (stream self')).1
      = BinLogStreamReader.event
          (BinLogStreamReader.feed (stream self)
             (S (BinLogStreamReader.fetched (stream self)))).
Proof.
  intros Hnil Hpull Hk.
  exists {| current_events := [];
            stream := (BinLogStreamReader.fetchone (stream self)).2 |}.
  split_and!; [| done | done | done].
  apply refill_empty_Raise; [done |].
  rewrite Hpull. simpl. by apply rows_event_unmapped.
Qed.

Lemma refill_unmapped_event_is_consumed_witness :
  ∃ self',
    _refill_current_events
      {| current_events := [];
         stream :=
           {| BinLogStreamReader.feed :=
                λ n, match n with
                     | 0 => BinLogStreamReader.mk_packet
                              (Some (RowsEvent UpdateRowsEvent
                                       Sample.v1_update))
                              "binlog.000007" 300
                     | _ => Sample.feed n
                     end;
              BinLogStreamReader.fetched := 0;
              BinLogStreamReader.log_file := "binlog.000007";
              BinLogStreamReader.log_pos := 120 |} |}
    = (Raise (KeyError BINLOG.UPDATE_ROWS_EVENT_V1), self')
    ∧ current_events self' = []
    ∧ BinLogStreamReader.fetched (stream self') = 1
    ∧ (BinLogStreamReader.fetchone (stream self')).1
      = Some (RowsEvent WriteRowsEvent Sample.insert_no_rows).
Proof.
  apply (refill_unmapped_event_is_consumed
           {| current_events := [];
              stream :=
                {| BinLogStreamReader.feed :=
                     λ n, match n with
                          | 0 => BinLogStreamReader.mk_packet
                                   (Some (RowsEvent UpdateRowsEvent
                                            Sample.v1_update))
                                   "binlog.000007" 300
                          | _ => Sample.feed n
                          end;
                   BinLogStreamReader.fetched := 0;
                   BinLogStreamReader.log_file := "binlog.000007";
                   BinLogStreamReader.log_pos := 120 |} |}
           UpdateRowsEvent Sample.v1_update);
    reflexivity.
Defined.
